(** * A JSON-RPC 2.0 arithmetic server (server.py), embedded in Rocq

    The development follows server.py top to bottom:
    - the Python values that [json.loads] can produce, and the few Python
      operators the server applies to them ([in], subscription, [==], [+],
      [-], [sum], [isinstance]);
    - the exception class [RPCError] with its derived message;
    - the three methods [sum_method], [add] and [subtract];
    - [handle_request], with its [try]/[except] written out;
    - [main], the loop over the lines of the standard input.

    Exceptions are modelled by an error monad: a Python expression evaluates
    to [Returned v] or to [Raised e]. *)

From Stdlib Require Import ZArith Ascii String DecimalString List Bool Lia Floats.
From Stdlib Require Import Permutation.
Import ListNotations.
Open Scope string_scope.
Open Scope list_scope.
Open Scope Z_scope.

(** ** Python values *)

(** What [json.loads] builds: [None], [bool], [int] (unbounded), [float]
    (IEEE binary64), [str], [list], and [dict] with string keys. A dict keeps
    its keys in insertion order, so it is an association list. *)
#[warnings="-register-all"]
Inductive value : Type :=
| VNone
| VBool (b : bool)
| VInt (z : Z)
| VFloat (f : float)
| VStr (s : string)
| VList (l : list value)
| VDict (d : list (string * value)).

(** ** Exceptions *)

(** [RPCError]: the three attributes set by [__init__]. *)
Record RPCError : Type := mkRPCError {
  code : Z;
  message : string;
  id : value
}.

(** [RPCError.get_message]. *)
Definition get_message (code : Z) : string :=
  if code =? -32600 then "Invalid Request"
  else if code =? -32601 then "Method not found"
  else if code =? -32602 then "Invalid parameters"
  else if code =? -32700 then "Parse error"
  else "Internal error".

(** [RPCError.__init__(code, id)]. *)
Definition RPCError_init (code : Z) (id : value) : RPCError :=
  {| code := code; message := get_message code; id := id |}.

(** The exceptions that the server's code can meet. *)
Inductive exn : Type :=
| JSONDecodeError
| RPCFault (e : RPCError)
| TypeError
| KeyError
| IndexError
| AttributeError
| OverflowError.

(** The outcome of evaluating a Python expression. *)
Inductive outcome (A : Type) : Type :=
| Returned (a : A)
| Raised (e : exn).
Arguments Returned {A} a.
Arguments Raised {A} e.

Definition bind {A B : Type} (m : outcome A) (k : A -> outcome B) : outcome B :=
  match m with
  | Returned a => k a
  | Raised e => Raised e
  end.

Notation "x <- m ;; k" := (bind m (fun x => k))
  (at level 61, m at next level, right associativity).

(** [try: body except Exception: raise e'] *)
Definition except_Exception {A : Type} (body : outcome A) (e' : exn) : outcome A :=
  match body with
  | Returned a => Returned a
  | Raised _ => Raised e'
  end.

(** ** Python operators on values *)

(** [isinstance(v, list)]. *)
Definition isinstance_list (v : value) : bool :=
  match v with VList _ => true | _ => false end.

(** [v == s] for a string literal [s]: only a [str] equals a [str]. *)
Definition eq_str (v : value) (s : string) : bool :=
  match v with
  | VStr t => String.eqb t s
  | _ => false
  end.

(** Dict lookup, and item assignment [d[k] = v]. *)
Fixpoint dict_get (d : list (string * value)) (k : string) : option value :=
  match d with
  | [] => None
  | (k', v) :: d' => if String.eqb k' k then Some v else dict_get d' k
  end.

Fixpoint dict_set (d : list (string * value)) (k : string) (v : value)
  : list (string * value) :=
  match d with
  | [] => [(k, v)]
  | (k', v') :: d' =>
      if String.eqb k' k then (k', v) :: d' else (k', v') :: dict_set d' k v
  end.

(** Substring test, [needle in hay] on two [str]. *)
Fixpoint str_contains (needle hay : string) : bool :=
  if String.prefix needle hay then true
  else match hay with
       | EmptyString => false
       | String _ rest => str_contains needle rest
       end.

(** [key in c] for a string literal [key]: key membership in a dict, element
    membership in a list, substring in a str; the other types are not
    iterable and raise [TypeError]. *)
Definition py_in (key : string) (c : value) : outcome bool :=
  match c with
  | VDict d => Returned (match dict_get d key with Some _ => true | None => false end)
  | VList l => Returned (existsb (fun v => eq_str v key) l)
  | VStr s => Returned (str_contains key s)
  | _ => Raised TypeError
  end.

(** [c[key]] for a string literal [key]: [KeyError] on a dict without the
    key; a list or a str only takes integer indices, the other types are not
    subscriptable. *)
Definition getitem_str (c : value) (key : string) : outcome value :=
  match c with
  | VDict d => match dict_get d key with
               | Some v => Returned v
               | None => Raised KeyError
               end
  | _ => Raised TypeError
  end.

(** [l[i]] on a list, for a literal index [i >= 0]. *)
Definition getitem_nat (l : list value) (i : nat) : outcome value :=
  match nth_error l i with
  | Some v => Returned v
  | None => Raised IndexError
  end.

(** [c.get(key, default)]: a method of dicts only. *)
Definition dict_get_default (c : value) (key : string) (default : value)
  : outcome value :=
  match c with
  | VDict d => Returned (match dict_get d key with
                         | Some v => v
                         | None => default
                         end)
  | _ => Raised AttributeError
  end.

(** [c[key] = v] on a dict. *)
Definition setitem (c : value) (key : string) (v : value) : outcome value :=
  match c with
  | VDict d => Returned (VDict (dict_set d key v))
  | _ => Raised TypeError
  end.

(** *** Arithmetic *)

(** Conversion of an [int] to a [float]: rounded to nearest even,
    [OverflowError] when the integer is beyond the range of a double. *)
Definition int_to_float (z : Z) : outcome float :=
  match binary_normalize prec emax z 0 false with
  | S754_infinity _ => Raised OverflowError
  | sf => Returned (SF2Prim sf)
  end.

(** The operands of Python's numeric tower: [bool] is a subclass of [int]. *)
Inductive number : Type :=
| NInt (z : Z)
| NFloat (f : float).

Definition as_number (v : value) : option number :=
  match v with
  | VBool b => Some (NInt (if b then 1 else 0))
  | VInt z => Some (NInt z)
  | VFloat f => Some (NFloat f)
  | _ => None
  end.

(** A binary arithmetic operator on two values: exact on two ints, in
    floating point as soon as one operand is a float, [TypeError] when an
    operand is not a number. *)
Definition arith (opZ : Z -> Z -> Z) (opF : float -> float -> float)
  (a b : value) : outcome value :=
  match as_number a, as_number b with
  | Some (NInt x), Some (NInt y) => Returned (VInt (opZ x y))
  | Some (NInt x), Some (NFloat g) =>
      f <- int_to_float x ;; Returned (VFloat (opF f g))
  | Some (NFloat f), Some (NInt y) =>
      g <- int_to_float y ;; Returned (VFloat (opF f g))
  | Some (NFloat f), Some (NFloat g) => Returned (VFloat (opF f g))
  | _, _ => Raised TypeError
  end.

(** [a + b]: concatenation on two strs and on two lists, arithmetic
    otherwise. *)
Definition py_add (a b : value) : outcome value :=
  match a, b with
  | VStr s, VStr t => Returned (VStr (s ++ t)%string)
  | VList l, VList m => Returned (VList (l ++ m))
  | _, _ => arith Z.add PrimFloat.add a b
  end.

(** [a - b]: arithmetic only. *)
Definition py_sub (a b : value) : outcome value :=
  arith Z.sub PrimFloat.sub a b.

(** The builtin [sum(l)]: the items are added from left to right, to the
    start value [0]. (On floats, recent interpreters compensate the rounding
    error of this loop; the theorems below only use [sum] on ints.) *)
Fixpoint sum_from (acc : value) (l : list value) : outcome value :=
  match l with
  | [] => Returned acc
  | x :: l' => acc' <- py_add acc x ;; sum_from acc' l'
  end.

Definition py_sum (l : list value) : outcome value := sum_from (VInt 0) l.

(** ** The RPC methods *)

(** [sum_method(params)]. *)
Definition sum_method (params : value) : outcome value :=
  except_Exception
    (match params with
     | VList l => py_sum l
     | _ => Raised (RPCFault (RPCError_init (-32602) VNone))
     end)
    (RPCFault (RPCError_init (-32602) VNone)).

(** [add(params, id)]. *)
Definition add (params : value) (id : value) : outcome value :=
  except_Exception
    (match params with
     | VList l =>
         a <- getitem_nat l 0 ;;
         b <- getitem_nat l 1 ;;
         py_add a b
     | _ => Raised (RPCFault (RPCError_init (-32602) id))
     end)
    (RPCFault (RPCError_init (-32602) id)).

(** [subtract(params, id)]. *)
Definition subtract (params : value) (id : value) : outcome value :=
  except_Exception
    (match params with
     | VDict _ =>
         a <- getitem_str params "minuend" ;;
         b <- getitem_str params "subtrahend" ;;
         py_sub a b
     | VList l =>
         a <- getitem_nat l 0 ;;
         b <- getitem_nat l 1 ;;
         py_sub a b
     | _ => Raised (RPCFault (RPCError_init (-32602) id))
     end)
    (RPCFault (RPCError_init (-32602) id)).

(** ** The request handler *)

(** The dict literal [{"code": c, "message": m}]. *)
Definition error_object (c : Z) (m : string) : value :=
  VDict [("code", VInt c); ("message", VStr m)].

(** The condition of the [if] that guards the envelope,
    ["jsonrpc" not in req or req["jsonrpc"] != "2.0" or "method" not in req
     or "id" not in req]: [or] evaluates its operands from left to right and
    stops at the first true one. *)
Definition invalid_envelope (req : value) : outcome bool :=
  has_version <- py_in "jsonrpc" req ;;
  if negb has_version then Returned true else
  version <- getitem_str req "jsonrpc" ;;
  if negb (eq_str version "2.0") then Returned true else
  has_method <- py_in "method" req ;;
  if negb has_method then Returned true else
  has_id <- py_in "id" req ;;
  Returned (negb has_id).

(** The [try] block of [handle_request] after [json.loads]: the value of
    [response] when the block ends, or the exception that leaves it.
    [add] is called without its [id] argument, which then takes its default
    [None]. *)
Definition try_block (req : value) : outcome value :=
  invalid <- invalid_envelope req ;;
  if (invalid : bool) then Raised (RPCFault (RPCError_init (-32600) VNone)) else
  method <- getitem_str req "method" ;;
  params <- dict_get_default req "params" (VList []) ;;
  request_id <- getitem_str req "id" ;;
  let response := VDict [("jsonrpc", VStr "2.0"); ("id", request_id)] in
  if eq_str method "add" then
    result <- add params VNone ;;
    setitem response "result" result
  else if eq_str method "sum" then
    result <- sum_method params ;;
    setitem response "result" result
  else if eq_str method "subtract" then
    request_id' <- getitem_str req "id" ;;
    result <- subtract params request_id' ;;
    setitem response "result" result
  else
    setitem response "error" (error_object (-32601) "Method not found").

(** The two [except] clauses: they catch [json.JSONDecodeError] and
    [RPCError]; any other exception leaves [handle_request]. *)
Definition except_clauses (body : outcome value) : outcome value :=
  match body with
  | Returned response => Returned response
  | Raised JSONDecodeError =>
      Returned (VDict [("jsonrpc", VStr "2.0");
                       ("error", error_object (-32700) "Parse error");
                       ("id", VNone)])
  | Raised (RPCFault e) =>
      Returned (VDict [("jsonrpc", VStr "2.0");
                       ("error", error_object (code e) (message e));
                       ("id", id e)])
  | Raised e => Raised e
  end.

(** The [json] module is the interpreter's, not the server's: [json.loads]
    and [json.dumps] are parameters of [handle_request]. *)
Section HandleRequest.

Variable json_loads : string -> outcome value.
Variable json_dumps : value -> string.

(** [handle_request(request)]. *)
Definition handle_request (request : string) : outcome string :=
  response <- except_clauses (req <- json_loads request ;; try_block req) ;;
  Returned (json_dumps response).

End HandleRequest.

(** * The vocabulary of the properties *)

(** The fault [RPCError(code=-32602, id=id)]. *)
Definition invalid_params (id : value) : exn :=
  RPCFault (RPCError_init (-32602) id).

(** The exact total of a list of integers. *)
Definition total (zs : list Z) : Z := fold_right Z.add 0 zs.

(** The two shapes of [subtract]'s parameters. *)
Definition by_name (a b : value) : value :=
  VDict [("minuend", a); ("subtrahend", b)].


(** JSON numbers: [int] and [float]. *)
Definition is_number (v : value) : bool :=
  match v with
  | VInt _ | VFloat _ => true
  | _ => false
  end.

(** The pairs of operands that [+] accepts: two numbers of the numeric tower
    (booleans included), two strs, two lists. *)
Definition addable (a b : value) : bool :=
  match a, b with
  | VStr _, VStr _ => true
  | VList _, VList _ => true
  | _, _ => match as_number a, as_number b with
            | Some _, Some _ => true
            | _, _ => false
            end
  end.

(** The Response that carries a fault, as the [except] clauses build it. *)
Definition fault_response (c : Z) (m : string) (id : value) : value :=
  VDict [("jsonrpc", VStr "2.0"); ("error", error_object c m); ("id", id)].

(** The Response that carries a result. *)
Definition result_response (id result : value) : value :=
  VDict [("jsonrpc", VStr "2.0"); ("id", id); ("result", result)].

(** The Response to an unknown method, built inside the [try] block. *)
Definition method_not_found_response (id : value) : value :=
  VDict [("jsonrpc", VStr "2.0"); ("id", id);
         ("error", error_object (-32601) "Method not found")].

Definition has_key (v : value) (k : string) : bool :=
  match v with
  | VDict d => match dict_get d k with Some _ => true | None => false end
  | _ => false
  end.

(** A Response: [jsonrpc] is ["2.0"], and exactly one of [result] and [error]
    is present. *)
Definition well_formed_response (v : value) : Prop :=
  getitem_str v "jsonrpc" = Returned (VStr "2.0")
  /\ xorb (has_key v "result") (has_key v "error") = true.

(** The envelope of a decoded object, as [invalid_envelope] tests it. *)
Definition valid_envelope (d : list (string * value)) : bool :=
  match dict_get d "jsonrpc" with
  | Some version =>
      eq_str version "2.0" && has_key (VDict d) "method" && has_key (VDict d) "id"
  | None => false
  end.

(** The [if]/[elif] chain of the [try] block, on a request whose envelope is
    valid. *)
Definition dispatch (method params id : value) : outcome value :=
  if eq_str method "add" then
    result <- add params VNone ;; Returned (result_response id result)
  else if eq_str method "sum" then
    result <- sum_method params ;; Returned (result_response id result)
  else if eq_str method "subtract" then
    result <- subtract params id ;; Returned (result_response id result)
  else Returned (method_not_found_response id).

(** [req.get("params", [])] on the fields of a decoded object. *)
Definition params_of (d : list (string * value)) : value :=
  match dict_get d "params" with
  | Some params => params
  | None => VList []
  end.

(** The decoded values on which the envelope test itself raises a
    [TypeError]: the values that are not iterable, and the strs and lists
    that contain ["jsonrpc"] but take no str subscript. *)
Definition envelope_test_raises (req : value) : bool :=
  match req with
  | VDict _ => false
  | VList l => existsb (fun v => eq_str v "jsonrpc") l
  | VStr s => str_contains "jsonrpc" s
  | _ => true
  end.

(** *** A stand-in for the [json] module, for the examples *)

(** The decoder knows the texts of a finite table and rejects every other
    text. The encoder writes a value the way [json.dumps] does, with [", "]
    and [": "] as separators, as long as no float is to be written (it
    writes the word float) and no character of a str needs an escape. *)
Definition loads_table (table : list (string * value)) (text : string)
  : outcome value :=
  match dict_get table text with
  | Some v => Returned v
  | None => Raised JSONDecodeError
  end.

Definition double_quote : string := String (Ascii.ascii_of_nat 34) "".

Definition dumps_int (z : Z) : string :=
  NilZero.string_of_int (Z.to_int z).

Fixpoint dumps_plain (v : value) : string :=
  match v with
  | VNone => "null"
  | VBool true => "true"
  | VBool false => "false"
  | VInt z => dumps_int z
  | VFloat _ => "float"
  | VStr s => double_quote ++ s ++ double_quote
  | VList l =>
      "[" ++ (fix items (l : list value) : string :=
                match l with
                | [] => ""
                | [x] => dumps_plain x
                | x :: l' => dumps_plain x ++ ", " ++ items l'
                end) l ++ "]"
  | VDict d =>
      "{" ++ (fix fields (d : list (string * value)) : string :=
                match d with
                | [] => ""
                | [(k, x)] =>
                    double_quote ++ k ++ double_quote ++ ": " ++ dumps_plain x
                | (k, x) :: d' =>
                    double_quote ++ k ++ double_quote ++ ": " ++ dumps_plain x
                    ++ ", " ++ fields d'
                end) d ++ "}"
  end%string.

(** A JSON text written with apostrophes in place of the double quotes. *)
Fixpoint json_text (s : string) : string :=
  match s with
  | EmptyString => EmptyString
  | String c rest =>
      String (if Ascii.eqb c "'"%char then Ascii.ascii_of_nat 34 else c)
             (json_text rest)
  end.

(** The request [{"jsonrpc": "2.0", "method": m, "params": p, "id": i}]. *)
Definition request_object (method params id : value) : list (string * value) :=
  [("jsonrpc", VStr "2.0"); ("method", method); ("params", params); ("id", id)].

(** The request texts of the examples, with what [json.loads] makes of
    them. *)
Definition add_text : string :=
  json_text "{'jsonrpc': '2.0', 'method': 'add', 'params': [2, 3], 'id': 1}".

Definition add_str_text : string :=
  json_text "{'jsonrpc': '2.0', 'method': 'add', 'params': 'x', 'id': 1}".

Definition sum_str_text : string :=
  json_text "{'jsonrpc': '2.0', 'method': 'sum', 'params': 'x', 'id': 7}".

Definition divide_text : string :=
  json_text "{'jsonrpc': '2.0', 'method': 'divide', 'params': [6, 3], 'id': 4}".

Definition example_table : list (string * value) :=
  [ ("1", VInt 1);
    ("null", VNone);
    (add_text,
     VDict (request_object (VStr "add") (VList [VInt 2; VInt 3]) (VInt 1)));
    (add_str_text,
     VDict (request_object (VStr "add") (VStr "x") (VInt 1)));
    (sum_str_text,
     VDict (request_object (VStr "sum") (VStr "x") (VInt 7)));
    (divide_text,
     VDict (request_object (VStr "divide") (VList [VInt 6; VInt 3]) (VInt 4))) ].

Definition example_loads : string -> outcome value := loads_table example_table.

(** [handle_request] with the stand-in. *)
Definition example_handle_request : string -> outcome string :=
  handle_request example_loads dumps_plain.

(** ** The read loop *)

(** [main()]: the lines of [sys.stdin] are handled one after the other, and
    each response is printed. The standard output is the list of the lines
    printed so far; an exception that leaves [handle_request] leaves the loop
    and [main], and the lines that follow are not read. *)
Section Main.

Variable json_loads : string -> outcome value.
Variable json_dumps : value -> string.


End Main.

(** The codes of the JSON-RPC faults that have a message of their own. *)
Definition standard_code (c : Z) : Prop :=
  c = -32700 \/ c = -32600 \/ c = -32601 \/ c = -32602.

(** The values that are an [int] or a [float]. *)
Definition is_int_or_float (v : value) : Prop :=
  (exists z, v = VInt z) \/ (exists f, v = VFloat f).


(** Two objects with the same four fields of the envelope. *)
Definition same_envelope (d d' : list (string * value)) : Prop :=
  dict_get d "jsonrpc" = dict_get d' "jsonrpc"
  /\ dict_get d "method" = dict_get d' "method"
  /\ dict_get d "params" = dict_get d' "params"
  /\ dict_get d "id" = dict_get d' "id".

(** More request texts, for the examples of the further properties. *)
Definition sum_text : string :=
  json_text "{'jsonrpc': '2.0', 'method': 'sum', 'params': [1, 2, 3], 'id': 2}".

Definition sum_no_params_text : string :=
  json_text "{'jsonrpc': '2.0', 'method': 'sum', 'id': 5}".

Definition subtract_text : string :=
  json_text "{'jsonrpc': '2.0', 'method': 'subtract', 'params': {'minuend': 10, 'subtrahend': 4}, 'id': 'x'}".

Definition subtract_short_text : string :=
  json_text "{'jsonrpc': '2.0', 'method': 'subtract', 'params': [10], 'id': 3}".

Definition no_method_text : string :=
  json_text "{'jsonrpc': '2.0', 'params': [2, 3], 'id': 9}".

Definition add_reordered_text : string :=
  json_text "{'id': 1, 'verbose': true, 'params': [2, 3], 'method': 'add', 'jsonrpc': '2.0'}".

Definition further_table : list (string * value) :=
  [ ("1", VInt 1);
    ("[1, 2]", VList [VInt 1; VInt 2]);
    (add_text,
     VDict (request_object (VStr "add") (VList [VInt 2; VInt 3]) (VInt 1)));
    (add_str_text,
     VDict (request_object (VStr "add") (VStr "x") (VInt 1)));
    (sum_text,
     VDict (request_object (VStr "sum") (VList [VInt 1; VInt 2; VInt 3]) (VInt 2)));
    (sum_no_params_text,
     VDict [("jsonrpc", VStr "2.0"); ("method", VStr "sum"); ("id", VInt 5)]);
    (subtract_text,
     VDict (request_object (VStr "subtract") (by_name (VInt 10) (VInt 4)) (VStr "x")));
    (subtract_short_text,
     VDict (request_object (VStr "subtract") (VList [VInt 10]) (VInt 3)));
    (no_method_text,
     VDict [("jsonrpc", VStr "2.0"); ("params", VList [VInt 2; VInt 3]);
            ("id", VInt 9)]);
    (add_reordered_text,
     VDict [("id", VInt 1); ("verbose", VBool true);
            ("params", VList [VInt 2; VInt 3]); ("method", VStr "add");
            ("jsonrpc", VStr "2.0")]) ].

Definition further_loads : string -> outcome value := loads_table further_table.

Definition further_handle_request : string -> outcome string :=
  handle_request further_loads dumps_plain.


(** * Properties *)

(** ** The arithmetic methods *)

Lemma invalid_params_fields (id : value) :
  invalid_params id =
  RPCFault {| code := -32602; message := "Invalid parameters"; id := id |}.
Proof. reflexivity. Qed.

Lemma sum_from_ints (zs : list Z) (acc : Z) :
  sum_from (VInt acc) (map VInt zs) = Returned (VInt (acc + total zs)).
Proof.
  revert acc.
  induction zs as [|z zs IH]; intro acc; simpl.
  - now rewrite Z.add_0_r.
  - rewrite IH. now rewrite Z.add_assoc.
Qed.





Lemma add_two (a b : value) (rest : list value) (id : value) :
  add (VList (a :: b :: rest)) id = except_Exception (py_add a b) (invalid_params id).
Proof. reflexivity. Qed.

Lemma py_add_not_addable (a b : value) :
  addable a b = false -> py_add a b = Raised TypeError.
Proof.
  destruct a, b; simpl; try discriminate; reflexivity.
Qed.

Lemma py_add_numbers (a b : value) (m n : number) :
  as_number a = Some m -> as_number b = Some n ->
  py_add a b = arith Z.add PrimFloat.add a b.
Proof.
  destruct a, b; simpl; try discriminate; reflexivity.
Qed.

(** C3. [add] does not reject every list whose first two elements are not
    numbers: it returns the concatenation of two strs, and of two lists,
    where [subtract] and [sum_method] raise the fault -32602. *)
Theorem add_concatenates_non_numbers :
  (forall s t rest id,
     add (VList (VStr s :: VStr t :: rest)) id = Returned (VStr (s ++ t)%string)
     /\ subtract (VList (VStr s :: VStr t :: rest)) id = Raised (invalid_params id)
     /\ sum_method (VList (VStr s :: VStr t :: rest)) = Raised (invalid_params VNone))
  /\ (forall l m rest id,
        add (VList (VList l :: VList m :: rest)) id = Returned (VList (l ++ m))
        /\ subtract (VList (VList l :: VList m :: rest)) id = Raised (invalid_params id)
        /\ sum_method (VList (VList l :: VList m :: rest)) = Raised (invalid_params VNone)).
Proof. split; intros; repeat split. Qed.

(** The outcomes of [add]. On a list whose first two elements are numbers of
    Python's numeric tower (a boolean counts as the integer 1 or 0), [add]
    returns their sum: exact on two integers, in binary64 on two floats or
    after the conversion of the integer of a mixed pair. On two strs or two
    lists it returns their concatenation. It raises the fault -32602 with
    the given id when [params] is not a list, when the list has fewer than
    two elements, when the first two elements are not two numbers, two strs
    or two lists, and when the integer of a mixed pair is beyond the range
    of a float. *)
Lemma add_sum_or_invalid_params :
  (forall a b x y rest id,
     as_number a = Some (NInt x) -> as_number b = Some (NInt y) ->
     add (VList (a :: b :: rest)) id = Returned (VInt (x + y)))
  /\ (forall a b f g rest id,
        as_number a = Some (NFloat f) -> as_number b = Some (NFloat g) ->
        add (VList (a :: b :: rest)) id = Returned (VFloat (PrimFloat.add f g)))
  /\ (forall a b x f g rest id,
        as_number a = Some (NInt x) -> as_number b = Some (NFloat g) ->
        int_to_float x = Returned f ->
        add (VList (a :: b :: rest)) id = Returned (VFloat (PrimFloat.add f g))
        /\ add (VList (b :: a :: rest)) id = Returned (VFloat (PrimFloat.add g f)))
  /\ (forall a b x g e rest id,
        as_number a = Some (NInt x) -> as_number b = Some (NFloat g) ->
        int_to_float x = Raised e ->
        add (VList (a :: b :: rest)) id = Raised (invalid_params id)
        /\ add (VList (b :: a :: rest)) id = Raised (invalid_params id))
  /\ (forall s t rest id,
        add (VList (VStr s :: VStr t :: rest)) id = Returned (VStr (s ++ t)%string))
  /\ (forall l m rest id,
        add (VList (VList l :: VList m :: rest)) id = Returned (VList (l ++ m)))
  /\ (forall params id,
        isinstance_list params = false ->
        add params id = Raised (invalid_params id))
  /\ (forall l id,
        (length l < 2)%nat ->
        add (VList l) id = Raised (invalid_params id))
  /\ (forall a b rest id,
        addable a b = false ->
        add (VList (a :: b :: rest)) id = Raised (invalid_params id)).
Proof.
  repeat match goal with |- _ /\ _ => split end.
  - intros a b x y rest id Ha Hb.
    rewrite add_two, (py_add_numbers a b _ _ Ha Hb).
    unfold arith. now rewrite Ha, Hb.
  - intros a b f g rest id Ha Hb.
    rewrite add_two, (py_add_numbers a b _ _ Ha Hb).
    unfold arith. now rewrite Ha, Hb.
  - intros a b x f g rest id Ha Hb Hx.
    rewrite !add_two, (py_add_numbers a b _ _ Ha Hb), (py_add_numbers b a _ _ Hb Ha).
    unfold arith. rewrite Ha, Hb, Hx. split; reflexivity.
  - intros a b x g e rest id Ha Hb Hx.
    rewrite !add_two, (py_add_numbers a b _ _ Ha Hb), (py_add_numbers b a _ _ Hb Ha).
    unfold arith. rewrite Ha, Hb, Hx. split; reflexivity.
  - reflexivity.
  - reflexivity.
  - intros params id Hp. destruct params; try reflexivity. discriminate Hp.
  - intros l id Hl.
    destruct l as [|a [|b rest]]; try reflexivity.
    simpl in Hl. lia.
  - intros a b rest id Hab.
    now rewrite add_two, (py_add_not_addable a b Hab).
Qed.

(** Instances of [add_sum_or_invalid_params]. *)
Lemma add_sum_or_invalid_params_examples :
  add (VList [VInt 2; VInt 3]) (VInt 1) = Returned (VInt 5)
  /\ add (VList [VBool true; VInt 3]) (VInt 1) = Returned (VInt 4)
  /\ add (VList [VFloat 1.5; VFloat 2]) (VInt 1) = Returned (VFloat 3.5)
  /\ add (VList [VInt 1; VFloat 0.5]) (VInt 1) = Returned (VFloat 1.5)
  /\ add (VList [VInt (10 ^ 400); VFloat 1]) (VInt 1) = Raised (invalid_params (VInt 1))
  /\ add (VStr "23") (VInt 1) = Raised (invalid_params (VInt 1))
  /\ add (VList [VInt 2]) (VInt 1) = Raised (invalid_params (VInt 1))
  /\ add (VList [VInt 2; VStr "3"]) (VInt 1) = Raised (invalid_params (VInt 1)).
Proof.
  destruct add_sum_or_invalid_params
    as (Hii & Hff & Hif & Hover & _ & _ & Hnl & Hshort & Hmis).
  repeat match goal with |- _ /\ _ => split end.
  - exact (Hii (VInt 2) (VInt 3) 2 3 [] (VInt 1) eq_refl eq_refl).
  - exact (Hii (VBool true) (VInt 3) 1 3 [] (VInt 1) eq_refl eq_refl).
  - exact (Hff (VFloat 1.5) (VFloat 2) _ _ [] (VInt 1) eq_refl eq_refl).
  - exact (proj1 (Hif (VInt 1) (VFloat 0.5) 1 1%float _ [] (VInt 1)
                    eq_refl eq_refl eq_refl)).
  - refine (proj1 (Hover (VInt (10 ^ 400)) (VFloat 1) (10 ^ 400) _ OverflowError
                     [] (VInt 1) eq_refl eq_refl _)).
    vm_compute. reflexivity.
  - exact (Hnl (VStr "23") (VInt 1) eq_refl).
  - apply Hshort. simpl. lia.
  - exact (Hmis (VInt 2) (VStr "3") [] (VInt 1) eq_refl).
Defined.


(** ** The request handler *)

Lemma invalid_envelope_dict (d : list (string * value)) :
  invalid_envelope (VDict d) = Returned (negb (valid_envelope d)).
Proof.
  unfold invalid_envelope, valid_envelope; simpl.
  destruct (dict_get d "jsonrpc") as [version|]; simpl; [|reflexivity].
  destruct (eq_str version "2.0"); simpl; [|reflexivity].
  destruct (dict_get d "method"); simpl; [|reflexivity].
  destruct (dict_get d "id"); reflexivity.
Qed.

Lemma valid_envelope_intro (d : list (string * value)) (method id : value) :
  dict_get d "jsonrpc" = Some (VStr "2.0") ->
  dict_get d "method" = Some method ->
  dict_get d "id" = Some id ->
  valid_envelope d = true.
Proof.
  intros Hv Hm Hi. unfold valid_envelope; simpl. now rewrite Hv, Hm, Hi.
Qed.

Lemma valid_envelope_elim (d : list (string * value)) :
  valid_envelope d = true ->
  dict_get d "jsonrpc" = Some (VStr "2.0")
  /\ (exists method, dict_get d "method" = Some method)
  /\ (exists id, dict_get d "id" = Some id).
Proof.
  unfold valid_envelope; simpl.
  destruct (dict_get d "jsonrpc") as [version|]; [|discriminate].
  destruct version; simpl; try discriminate.
  destruct (String.eqb_spec s "2.0"); simpl; [subst|discriminate].
  destruct (dict_get d "method") as [m|]; simpl; [|discriminate].
  destruct (dict_get d "id") as [i|]; simpl; [|discriminate].
  intros _. repeat split; eauto.
Qed.

Lemma try_block_valid (d : list (string * value)) (method id : value) :
  dict_get d "jsonrpc" = Some (VStr "2.0") ->
  dict_get d "method" = Some method ->
  dict_get d "id" = Some id ->
  try_block (VDict d) = dispatch method (params_of d) id.
Proof.
  intros Hv Hm Hi.
  unfold try_block.
  rewrite invalid_envelope_dict, (valid_envelope_intro d method id Hv Hm Hi).
  unfold dispatch, params_of; simpl. rewrite Hm, Hi; simpl.
  destruct (eq_str method "add"); [now destruct (add _ _)|].
  destruct (eq_str method "sum"); [now destruct (sum_method _)|].
  destruct (eq_str method "subtract"); [now destruct (subtract _ _)|].
  reflexivity.
Qed.

Lemma try_block_invalid (d : list (string * value)) :
  valid_envelope d = false ->
  try_block (VDict d) = Raised (RPCFault (RPCError_init (-32600) VNone)).
Proof.
  intro H. unfold try_block. now rewrite invalid_envelope_dict, H.
Qed.

Lemma except_Exception_cases {A : Type} (body : outcome A) (e' : exn) :
  (exists a, except_Exception body e' = Returned a)
  \/ except_Exception body e' = Raised e'.
Proof. destruct body; simpl; eauto. Qed.

Lemma add_cases (params id : value) :
  (exists v, add params id = Returned v)
  \/ add params id = Raised (invalid_params id).
Proof. apply except_Exception_cases. Qed.

Lemma sum_method_cases (params : value) :
  (exists v, sum_method params = Returned v)
  \/ sum_method params = Raised (invalid_params VNone).
Proof. apply except_Exception_cases. Qed.

Lemma subtract_cases (params id : value) :
  (exists v, subtract params id = Returned v)
  \/ subtract params id = Raised (invalid_params id).
Proof. apply except_Exception_cases. Qed.

Lemma result_response_well_formed (id result : value) :
  well_formed_response (result_response id result).
Proof. split; reflexivity. Qed.

Lemma method_not_found_response_well_formed (id : value) :
  well_formed_response (method_not_found_response id).
Proof. split; reflexivity. Qed.

Lemma fault_response_well_formed (c : Z) (m : string) (id : value) :
  well_formed_response (fault_response c m id).
Proof. split; reflexivity. Qed.

(** A dispatch ends with a Response or with an [RPCError]. *)
Lemma dispatch_cases (method params id : value) :
  (exists response,
      dispatch method params id = Returned response
      /\ well_formed_response response)
  \/ (exists e, dispatch method params id = Raised (RPCFault e)).
Proof.
  assert (Hmethod : forall m : outcome value,
             (exists v, m = Returned v) \/ m = Raised (invalid_params VNone)
             \/ m = Raised (invalid_params id) ->
             (exists response,
                 (result <- m ;; Returned (result_response id result))
                 = Returned response
                 /\ well_formed_response response)
             \/ (exists e,
                   (result <- m ;; Returned (result_response id result))
                   = Raised (RPCFault e))).
  { intros m [[v ->] | [-> | ->]]; simpl.
    - left. exists (result_response id v).
      split; [reflexivity | apply result_response_well_formed].
    - right. now exists (RPCError_init (-32602) VNone).
    - right. now exists (RPCError_init (-32602) id). }
  unfold dispatch.
  destruct (eq_str method "add").
  { apply Hmethod. destruct (add_cases params VNone); auto. }
  destruct (eq_str method "sum").
  { apply Hmethod. destruct (sum_method_cases params); auto. }
  destruct (eq_str method "subtract").
  { apply Hmethod. destruct (subtract_cases params id); auto. }
  left. exists (method_not_found_response id).
  split; [reflexivity | apply method_not_found_response_well_formed].
Qed.

(** The same for the whole [try] block, on a decoded object. *)
Lemma try_block_dict_cases (d : list (string * value)) :
  (exists response,
      try_block (VDict d) = Returned response
      /\ well_formed_response response)
  \/ (exists e, try_block (VDict d) = Raised (RPCFault e)).
Proof.
  destruct (valid_envelope d) eqn:Hd.
  - destruct (valid_envelope_elim d Hd) as (Hv & [m Hm] & [i Hi]).
    rewrite (try_block_valid d m i Hv Hm Hi). apply dispatch_cases.
  - right. rewrite (try_block_invalid d Hd). eauto.
Qed.

(** A Response that leaves the [try] block is well formed, whatever the
    decoded value was. *)
Lemma try_block_returns_well_formed (req response : value) :
  try_block req = Returned response -> well_formed_response response.
Proof.
  destruct req as [| b | z | f | s | l | d].
  1-4: unfold try_block, invalid_envelope; simpl; discriminate.
  - (* a str takes no str subscript *)
    unfold try_block, invalid_envelope; simpl.
    destruct (str_contains "jsonrpc" s); simpl; discriminate.
  - (* nor does a list *)
    unfold try_block, invalid_envelope; simpl.
    destruct (existsb _ l); simpl; discriminate.
  - destruct (try_block_dict_cases d) as [(r & -> & Hr) | [e ->]];
      [intros [= <-]; exact Hr | discriminate].
Qed.

Lemma except_clauses_well_formed (body : outcome value) (response : value) :
  (forall r, body = Returned r -> well_formed_response r) ->
  except_clauses body = Returned response ->
  well_formed_response response.
Proof.
  intros Hbody.
  destruct body as [r | e]; simpl.
  - intros [= <-]. now apply Hbody.
  - destruct e; try discriminate; intros [= <-];
      apply fault_response_well_formed.
Qed.

Lemma try_block_type_error (req : value) :
  envelope_test_raises req = true -> try_block req = Raised TypeError.
Proof.
  destruct req as [| b | z | f | s | l | d]; simpl; try reflexivity.
  - intro H. unfold try_block, invalid_envelope; simpl. now rewrite H.
  - intro H. unfold try_block, invalid_envelope; simpl. now rewrite H.
  - discriminate.
Qed.

Section HandleRequestProperties.

Variable json_loads : string -> outcome value.
Variable json_dumps : value -> string.

Lemma handle_request_decoded (request : string) (req : value) :
  json_loads request = Returned req ->
  handle_request json_loads json_dumps request =
  (response <- except_clauses (try_block req) ;;
   Returned (json_dumps response)).
Proof. intro H. unfold handle_request. now rewrite H. Qed.

Lemma handle_request_dispatch (request : string)
  (d : list (string * value)) (method id : value) :
  json_loads request = Returned (VDict d) ->
  dict_get d "jsonrpc" = Some (VStr "2.0") ->
  dict_get d "method" = Some method ->
  dict_get d "id" = Some id ->
  handle_request json_loads json_dumps request =
  (response <- except_clauses (dispatch method (params_of d) id) ;;
   Returned (json_dumps response)).
Proof.
  intros Hreq Hv Hm Hi.
  now rewrite (handle_request_decoded _ _ Hreq), (try_block_valid d method id).
Qed.


(** An object whose envelope is not valid: the Response -32600, with the id
    null. *)
Lemma handle_request_invalid_object (request : string)
  (d : list (string * value)) :
  json_loads request = Returned (VDict d) ->
  valid_envelope d = false ->
  handle_request json_loads json_dumps request =
  Returned (json_dumps (fault_response (-32600) "Invalid Request" VNone)).
Proof.
  intros Hreq Hd.
  now rewrite (handle_request_decoded _ _ Hreq), (try_block_invalid d Hd).
Qed.

(** The four ways of an object to fail the envelope test. *)
Lemma invalid_object_cases (d : list (string * value)) :
  dict_get d "jsonrpc" = None
  \/ (exists version,
        dict_get d "jsonrpc" = Some version /\ eq_str version "2.0" = false)
  \/ dict_get d "method" = None
  \/ dict_get d "id" = None ->
  valid_envelope d = false.
Proof.
  unfold valid_envelope; simpl.
  intros [-> | [(version & -> & ->) | [-> | ->]]]; try reflexivity;
    destruct (dict_get d "jsonrpc") as [version|]; try reflexivity;
    destruct (eq_str version "2.0"); try reflexivity; simpl;
    destruct (dict_get d "method"); reflexivity.
Qed.

(** A str or a list without ["jsonrpc"] in it: the Response -32600 too. *)
Lemma handle_request_invalid_sequence (request : string) (req : value) :
  json_loads request = Returned req ->
  isinstance_list req = true \/ (exists s, req = VStr s) ->
  envelope_test_raises req = false ->
  handle_request json_loads json_dumps request =
  Returned (json_dumps (fault_response (-32600) "Invalid Request" VNone)).
Proof.
  intros Hreq Hshape Hin.
  rewrite (handle_request_decoded _ _ Hreq).
  destruct Hshape as [Hl | [s ->]].
  - destruct req; try discriminate Hl.
    simpl in Hin. unfold try_block, invalid_envelope; simpl. now rewrite Hin.
  - simpl in Hin. unfold try_block, invalid_envelope; simpl. now rewrite Hin.
Qed.

(** C1. A request text that decodes to a number makes [handle_request]
    raise a [TypeError]: no Response is returned. *)
Theorem handle_request_raises_on_number (request : string) (z : Z) :
  json_loads request = Returned (VInt z) ->
  handle_request json_loads json_dumps request = Raised TypeError.
Proof.
  intro H. now rewrite (handle_request_decoded _ _ H).
Qed.

(** C4. When the decoded value is not an object and the envelope test raises
    on it (null, a boolean, a number, a str containing ["jsonrpc"], a list
    with the element ["jsonrpc"]), [handle_request] raises a [TypeError]
    instead of returning the Response -32600. *)
Theorem handle_request_raises_on_non_object (request : string) (req : value) :
  json_loads request = Returned req ->
  envelope_test_raises req = true ->
  handle_request json_loads json_dumps request = Raised TypeError.
Proof.
  intros H Hreq.
  now rewrite (handle_request_decoded _ _ H), (try_block_type_error _ Hreq).
Qed.

(** C2. On a request with a valid envelope, the method ["add"] and
    parameters that are not a list, [handle_request] returns the Response
    -32602 with the id null, whatever the id of the request. *)
Theorem handle_request_add_fault_id_null (request : string)
  (d : list (string * value)) (params id : value) :
  json_loads request = Returned (VDict d) ->
  dict_get d "jsonrpc" = Some (VStr "2.0") ->
  dict_get d "method" = Some (VStr "add") ->
  dict_get d "id" = Some id ->
  dict_get d "params" = Some params ->
  isinstance_list params = false ->
  handle_request json_loads json_dumps request =
  Returned (json_dumps (fault_response (-32602) "Invalid parameters" VNone)).
Proof.
  intros Hreq Hv Hm Hi Hp Hnl.
  rewrite (handle_request_dispatch _ _ _ _ Hreq Hv Hm Hi).
  unfold params_of, dispatch. rewrite Hp. simpl.
  now destruct params.
Qed.

(** C8. On a request with a valid envelope, the method ["sum"] and
    parameters that are not a list, [handle_request] returns the Response
    -32602 with the id null, whatever the id of the request. *)
Theorem handle_request_sum_fault_id_null (request : string)
  (d : list (string * value)) (params id : value) :
  json_loads request = Returned (VDict d) ->
  dict_get d "jsonrpc" = Some (VStr "2.0") ->
  dict_get d "method" = Some (VStr "sum") ->
  dict_get d "id" = Some id ->
  dict_get d "params" = Some params ->
  isinstance_list params = false ->
  handle_request json_loads json_dumps request =
  Returned (json_dumps (fault_response (-32602) "Invalid parameters" VNone)).
Proof.
  intros Hreq Hv Hm Hi Hp Hnl.
  rewrite (handle_request_dispatch _ _ _ _ Hreq Hv Hm Hi).
  unfold params_of, dispatch. rewrite Hp. simpl.
  now destruct params.
Qed.

(** C9. On a request with a valid envelope whose method is none of ["add"],
    ["sum"] and ["subtract"], the [try] block raises nothing: it ends with
    the Response whose [error] is [{code: -32601, message: "Method not
    found"}], which has no [result] and carries the id of the request; that
    Response is what [handle_request] returns. *)
Theorem handle_request_method_not_found (request : string)
  (d : list (string * value)) (method id : value) :
  json_loads request = Returned (VDict d) ->
  dict_get d "jsonrpc" = Some (VStr "2.0") ->
  dict_get d "method" = Some method ->
  dict_get d "id" = Some id ->
  eq_str method "add" = false ->
  eq_str method "sum" = false ->
  eq_str method "subtract" = false ->
  try_block (VDict d) = Returned (method_not_found_response id)
  /\ handle_request json_loads json_dumps request =
     Returned (json_dumps (method_not_found_response id))
  /\ getitem_str (method_not_found_response id) "error" =
     Returned (error_object (-32601) "Method not found")
  /\ has_key (method_not_found_response id) "result" = false
  /\ getitem_str (method_not_found_response id) "id" = Returned id.
Proof.
  intros Hreq Hv Hm Hi Hadd Hsum Hsub.
  rewrite (handle_request_dispatch _ _ _ _ Hreq Hv Hm Hi).
  rewrite (try_block_valid d method id Hv Hm Hi).
  unfold dispatch. rewrite Hadd, Hsum, Hsub.
  repeat split.
Qed.

(** C5. Whatever [handle_request] returns is the encoding of a Response
    whose [jsonrpc] is ["2.0"] and which has exactly one of the fields
    [result] and [error]. *)
Theorem handle_request_response_well_formed (request out : string) :
  handle_request json_loads json_dumps request = Returned out ->
  exists response,
    out = json_dumps response
    /\ getitem_str response "jsonrpc" = Returned (VStr "2.0")
    /\ xorb (has_key response "result") (has_key response "error") = true.
Proof.
  unfold handle_request.
  destruct (except_clauses _) as [response | e] eqn:Hresponse;
    simpl; [intros [= <-] | discriminate].
  exists response. split; [reflexivity|].
  apply (except_clauses_well_formed _ _) with (2 := Hresponse).
  intro r. destruct (json_loads request) as [req | e]; simpl;
    [apply try_block_returns_well_formed | discriminate].
Qed.


End HandleRequestProperties.

(** ** Examples *)

Example example_add_scenario :
  example_handle_request add_text
  = Returned (json_text "{'jsonrpc': '2.0', 'id': 1, 'result': 5}").
Proof. vm_compute. reflexivity. Qed.

Example example_parse_error :
  example_handle_request "{not json"
  = Returned (json_text
      "{'jsonrpc': '2.0', 'error': {'code': -32700, 'message': 'Parse error'}, 'id': null}").
Proof. vm_compute. reflexivity. Qed.

(** The text [1] decodes to the number 1, and no Response comes back. *)
Lemma handle_request_raises_on_number_witness :
  example_loads "1" = Returned (VInt 1)
  /\ example_handle_request "1" = Raised TypeError.
Proof.
  split; [reflexivity|].
  apply (handle_request_raises_on_number example_loads dumps_plain "1" 1).
  reflexivity.
Defined.

(** The text [null] decodes to [None], which is not an object, and no
    Response comes back. *)
Lemma handle_request_raises_on_non_object_witness :
  example_loads "null" = Returned VNone
  /\ example_handle_request "null" = Raised TypeError.
Proof.
  split; [reflexivity|].
  apply (handle_request_raises_on_non_object example_loads dumps_plain "null" VNone);
    reflexivity.
Defined.

(** [add] with the parameters ["x"] and the id 1; the Response has the
    id null. *)
Lemma handle_request_add_fault_id_null_witness :
  example_handle_request add_str_text
  = Returned (json_text
      "{'jsonrpc': '2.0', 'error': {'code': -32602, 'message': 'Invalid parameters'}, 'id': null}").
Proof.
  exact (handle_request_add_fault_id_null example_loads dumps_plain add_str_text
           (request_object (VStr "add") (VStr "x") (VInt 1)) (VStr "x") (VInt 1)
           eq_refl eq_refl eq_refl eq_refl eq_refl eq_refl).
Defined.

(** [sum] with the parameters ["x"] and the id 7; the Response has the
    id null. *)
Lemma handle_request_sum_fault_id_null_witness :
  example_handle_request sum_str_text
  = Returned (json_text
      "{'jsonrpc': '2.0', 'error': {'code': -32602, 'message': 'Invalid parameters'}, 'id': null}").
Proof.
  exact (handle_request_sum_fault_id_null example_loads dumps_plain sum_str_text
           (request_object (VStr "sum") (VStr "x") (VInt 7)) (VStr "x") (VInt 7)
           eq_refl eq_refl eq_refl eq_refl eq_refl eq_refl).
Defined.

(** The method ["divide"], with the id 4. *)
Lemma handle_request_method_not_found_witness :
  example_handle_request divide_text
  = Returned (json_text
      "{'jsonrpc': '2.0', 'id': 4, 'error': {'code': -32601, 'message': 'Method not found'}}").
Proof.
  exact (proj1 (proj2
    (handle_request_method_not_found example_loads dumps_plain divide_text
       (request_object (VStr "divide") (VList [VInt 6; VInt 3]) (VInt 4))
       (VStr "divide") (VInt 4)
       eq_refl eq_refl eq_refl eq_refl eq_refl eq_refl eq_refl))).
Defined.

(** The Response to the request [add [2, 3]]. *)
Lemma handle_request_response_well_formed_witness :
  exists response,
    json_text "{'jsonrpc': '2.0', 'id': 1, 'result': 5}" = dumps_plain response
    /\ getitem_str response "jsonrpc" = Returned (VStr "2.0")
    /\ xorb (has_key response "result") (has_key response "error") = true.
Proof.
  apply (handle_request_response_well_formed example_loads dumps_plain add_text).
  vm_compute. reflexivity.
Defined.



(** * Further properties of the code *)

(** ** The messages of [RPCError] *)

(** X1. [get_message] is ["Internal error"] exactly on the codes other than
    -32600, -32601, -32602 and -32700, and on these four codes the message
    tells the code: two of them with the same message are equal. *)
Theorem get_message_standard_codes :
  (forall c, get_message c = "Internal error" <-> ~ standard_code c)
  /\ (forall c c',
        standard_code c -> standard_code c' ->
        get_message c = get_message c' -> c = c').
Proof.
  split.
  - intro c. unfold standard_code, get_message.
    destruct (Z.eqb_spec c (-32600)) as [-> | H0]; [split; [discriminate | tauto]|].
    destruct (Z.eqb_spec c (-32601)) as [-> | H1]; [split; [discriminate | tauto]|].
    destruct (Z.eqb_spec c (-32602)) as [-> | H2]; [split; [discriminate | tauto]|].
    destruct (Z.eqb_spec c (-32700)) as [-> | H7]; [split; [discriminate | tauto]|].
    split; [intros _; tauto | reflexivity].
  - intros c c' [-> | [-> | [-> | ->]]] [-> | [-> | [-> | ->]]];
      vm_compute; intro H; try reflexivity; discriminate H.
Qed.

(** ** [subtract] *)

Lemma subtract_dict (d : list (string * value)) (a b id : value) :
  dict_get d "minuend" = Some a ->
  dict_get d "subtrahend" = Some b ->
  subtract (VDict d) id = except_Exception (py_sub a b) (invalid_params id).
Proof.
  intros Ha Hb. unfold subtract; simpl. now rewrite Ha, Hb.
Qed.

Lemma subtract_list (a b : value) (rest : list value) (id : value) :
  subtract (VList (a :: b :: rest)) id
  = except_Exception (py_sub a b) (invalid_params id).
Proof. reflexivity. Qed.

Lemma arith_not_number (opZ : Z -> Z -> Z) (opF : float -> float -> float)
  (a b : value) :
  as_number a = None \/ as_number b = None ->
  arith opZ opF a b = Raised TypeError.
Proof.
  unfold arith. intros [-> | ->]; [reflexivity|].
  destruct (as_number a) as [[x | f]|]; reflexivity.
Qed.

Lemma arith_returns_number (opZ : Z -> Z -> Z) (opF : float -> float -> float)
  (a b v : value) :
  arith opZ opF a b = Returned v -> is_int_or_float v.
Proof.
  unfold arith, is_int_or_float.
  destruct (as_number a) as [[x | f]|], (as_number b) as [[y | g]|];
    simpl; try discriminate.
  - intros [= <-]. eauto.
  - destruct (int_to_float x); simpl; [intros [= <-]; eauto | discriminate].
  - destruct (int_to_float y); simpl; [intros [= <-]; eauto | discriminate].
  - intros [= <-]. eauto.
Qed.

(** X2. [subtract] raises the fault -32602, with the id it was given, when
    the parameters are neither a dict nor a list, when the list has fewer
    than two elements, when the dict lacks the key ["minuend"] or the key
    ["subtrahend"], and when one of the two operands is not a number (a str,
    a list, a dict or null). *)
Theorem subtract_invalid_params :
  (forall params id,
     match params with VDict _ | VList _ => False | _ => True end ->
     subtract params id = Raised (invalid_params id))
  /\ (forall l id,
        (length l < 2)%nat ->
        subtract (VList l) id = Raised (invalid_params id))
  /\ (forall d id,
        dict_get d "minuend" = None \/ dict_get d "subtrahend" = None ->
        subtract (VDict d) id = Raised (invalid_params id))
  /\ (forall a b rest id,
        as_number a = None \/ as_number b = None ->
        subtract (VList (a :: b :: rest)) id = Raised (invalid_params id))
  /\ (forall d a b id,
        dict_get d "minuend" = Some a ->
        dict_get d "subtrahend" = Some b ->
        as_number a = None \/ as_number b = None ->
        subtract (VDict d) id = Raised (invalid_params id)).
Proof.
  repeat match goal with |- _ /\ _ => split end.
  - intros params id Hp. destruct params; try reflexivity; contradiction.
  - intros l id Hl. destruct l as [|a [|b rest]]; try reflexivity.
    simpl in Hl. lia.
  - intros d id Hd. unfold subtract; simpl.
    destruct (dict_get d "minuend") as [a|]; [|reflexivity].
    destruct Hd as [Hd | Hd]; [discriminate Hd | now rewrite Hd].
  - intros a b rest id Hab.
    rewrite subtract_list. unfold py_sub. now rewrite (arith_not_number _ _ a b Hab).
  - intros d a b id Ha Hb Hab.
    rewrite (subtract_dict d a b id Ha Hb).
    unfold py_sub. now rewrite (arith_not_number _ _ a b Hab).
Qed.

Lemma subtract_invalid_params_witness :
  subtract (VStr "10") (VInt 1) = Raised (invalid_params (VInt 1))
  /\ subtract (VList [VInt 10]) (VInt 1) = Raised (invalid_params (VInt 1))
  /\ subtract (VDict [("minuend", VInt 10)]) (VInt 1) = Raised (invalid_params (VInt 1))
  /\ subtract (VList [VInt 10; VStr "4"]) (VInt 1) = Raised (invalid_params (VInt 1))
  /\ subtract (by_name VNone (VInt 4)) (VInt 1) = Raised (invalid_params (VInt 1)).
Proof.
  destruct subtract_invalid_params as (Hshape & Hshort & Hkey & Hlist & Hdict).
  repeat match goal with |- _ /\ _ => split end.
  - apply Hshape. exact I.
  - apply Hshort. simpl. lia.
  - apply Hkey. right. reflexivity.
  - apply Hlist. right. reflexivity.
  - apply (Hdict _ VNone (VInt 4)); [reflexivity | reflexivity | left; reflexivity].
Defined.

(** X3. Whatever [subtract] returns is an int or a float: it never returns a
    str, a list, a dict, a boolean or null. *)
Theorem subtract_returns_number (params id v : value) :
  subtract params id = Returned v -> is_int_or_float v.
Proof.
  unfold subtract.
  destruct params as [| b | z | f | s | l | d]; simpl; try discriminate.
  - destruct l as [|a [|b rest]]; simpl; try discriminate.
    destruct (py_sub a b) as [w | e] eqn:Hsub; simpl; [|discriminate].
    intros [= <-]. exact (arith_returns_number _ _ a b w Hsub).
  - destruct (dict_get d "minuend") as [a|]; simpl; [|discriminate].
    destruct (dict_get d "subtrahend") as [b|]; simpl; [|discriminate].
    destruct (py_sub a b) as [w | e] eqn:Hsub; simpl; [|discriminate].
    intros [= <-]. exact (arith_returns_number _ _ a b w Hsub).
Qed.

Lemma subtract_returns_number_witness : is_int_or_float (VInt 6).
Proof.
  apply (subtract_returns_number (by_name (VInt 10) (VInt 4)) (VStr "x") (VInt 6)).
  reflexivity.
Defined.

(** ** [sum_method] *)

Lemma py_add_number_left (acc x : value) :
  is_int_or_float acc -> py_add acc x = arith Z.add PrimFloat.add acc x.
Proof. intros [[z ->] | [f ->]]; reflexivity. Qed.

Lemma sum_from_returns_number (l : list value) :
  forall acc v,
    is_int_or_float acc -> sum_from acc l = Returned v -> is_int_or_float v.
Proof.
  induction l as [|x l IH]; intros acc v Hacc; simpl.
  - now intros [= <-].
  - rewrite (py_add_number_left acc x Hacc).
    destruct (arith Z.add PrimFloat.add acc x) as [acc' | e] eqn:Hadd;
      simpl; [|discriminate].
    apply IH. exact (arith_returns_number _ _ acc x acc' Hadd).
Qed.

Lemma sum_from_not_number (l : list value) :
  Exists (fun x => as_number x = None) l ->
  forall acc, is_int_or_float acc -> exists e, sum_from acc l = Raised e.
Proof.
  induction 1 as [x l Hx | x l _ IH]; intros acc Hacc; simpl;
    rewrite (py_add_number_left acc x Hacc).
  - rewrite (arith_not_number _ _ acc x (or_intror Hx)). simpl. eauto.
  - destruct (arith Z.add PrimFloat.add acc x) as [acc' | e] eqn:Hadd;
      simpl; [|eauto].
    apply IH. exact (arith_returns_number _ _ acc x acc' Hadd).
Qed.

Lemma zero_is_number : is_int_or_float (VInt 0).
Proof. left. now exists 0. Qed.

(** X4. [sum_method] raises the fault -32602, with the id null, as soon as
    one element of the list is not a number (a str, a list, a dict or null),
    wherever it stands in the list. *)
Theorem sum_method_rejects_non_number (l : list value) :
  Exists (fun x => as_number x = None) l ->
  sum_method (VList l) = Raised (invalid_params VNone).
Proof.
  intro Hl. unfold sum_method, py_sum.
  destruct (sum_from_not_number l Hl (VInt 0) zero_is_number) as [e ->].
  reflexivity.
Qed.

Lemma sum_method_rejects_non_number_witness :
  sum_method (VList [VInt 1; VInt 2; VStr "3"]) = Raised (invalid_params VNone).
Proof.
  apply sum_method_rejects_non_number.
  apply Exists_cons_tl, Exists_cons_tl, Exists_cons_hd. reflexivity.
Defined.

(** X5. Whatever [sum_method] returns is an int or a float: unlike [add], it
    never concatenates strs or lists. *)
Theorem sum_method_returns_number (params v : value) :
  sum_method params = Returned v -> is_int_or_float v.
Proof.
  unfold sum_method.
  destruct params as [| b | z | f | s | l | d]; simpl; try discriminate.
  unfold py_sum.
  destruct (sum_from (VInt 0) l) as [w | e] eqn:Hsum; simpl; [|discriminate].
  intros [= <-]. exact (sum_from_returns_number l (VInt 0) w zero_is_number Hsum).
Qed.

Lemma sum_method_returns_number_witness : is_int_or_float (VFloat 2.5).
Proof.
  apply (sum_method_returns_number (VList [VInt 1; VFloat 0.5; VBool true])).
  reflexivity.
Defined.

Lemma total_permutation (zs zs' : list Z) :
  Permutation zs zs' -> total zs = total zs'.
Proof.
  induction 1 as [| z zs zs' _ IH | y z zs | zs1 zs2 zs3 _ IH12 _ IH23];
    simpl; lia.
Qed.

(** X6. On integers the result of [sum_method] does not depend on the order
    of the list. *)
Theorem sum_method_permutation (zs zs' : list Z) :
  Permutation zs zs' ->
  sum_method (VList (map VInt zs)) = sum_method (VList (map VInt zs')).
Proof.
  intro Hp. unfold sum_method, py_sum.
  now rewrite !sum_from_ints, (total_permutation zs zs' Hp).
Qed.

Lemma sum_method_permutation_witness :
  sum_method (VList [VInt 1; VInt 2; VInt 3])
  = sum_method (VList [VInt 2; VInt 1; VInt 3]).
Proof.
  apply (sum_method_permutation [1; 2; 3] [2; 1; 3]).
  apply perm_swap.
Defined.

(** X7. [sum_method] counts a boolean as the integer 1 or 0: on a list of
    integers and booleans it returns the exact total. *)
Theorem sum_method_counts_booleans (l : list value) (zs : list Z) :
  Forall2 (fun x z => as_number x = Some (NInt z)) l zs ->
  sum_method (VList l) = Returned (VInt (total zs)).
Proof.
  intro Hl. unfold sum_method, py_sum.
  assert (H : forall acc, sum_from (VInt acc) l = Returned (VInt (acc + total zs))).
  { induction Hl as [| x z l zs Hx _ IH]; intro acc; cbn [sum_from total fold_right].
    - now rewrite Z.add_0_r.
    - rewrite (py_add_number_left (VInt acc) x) by (left; now exists acc).
      unfold arith. cbn [as_number]. rewrite Hx. cbn [bind].
      rewrite IH. unfold total. now rewrite Z.add_assoc. }
  now rewrite H.
Qed.

Lemma sum_method_counts_booleans_witness :
  sum_method (VList [VBool true; VInt 5; VBool false; VBool true])
  = Returned (VInt 7).
Proof.
  apply (sum_method_counts_booleans _ [1; 5; 0; 1]).
  repeat constructor.
Defined.

(** ** [handle_request] *)

(** The four ways a dispatch ends. *)
Lemma dispatch_shapes (method params id : value) :
  (exists v, dispatch method params id = Returned (result_response id v))
  \/ dispatch method params id = Returned (method_not_found_response id)
  \/ dispatch method params id = Raised (invalid_params VNone)
  \/ dispatch method params id = Raised (invalid_params id).
Proof.
  unfold dispatch.
  destruct (eq_str method "add").
  { destruct (add_cases params VNone) as [[v ->] | ->]; simpl; eauto. }
  destruct (eq_str method "sum").
  { destruct (sum_method_cases params) as [[v ->] | ->]; simpl; eauto. }
  destruct (eq_str method "subtract").
  { destruct (subtract_cases params id) as [[v ->] | ->]; simpl; eauto 6. }
  auto.
Qed.

(** The ways the [try] block ends, on any decoded value. *)
Lemma try_block_shapes (req : value) :
  (exists id v, try_block req = Returned (result_response id v))
  \/ (exists id, try_block req = Returned (method_not_found_response id))
  \/ (exists id, try_block req = Raised (invalid_params id))
  \/ try_block req = Raised (RPCFault (RPCError_init (-32600) VNone))
  \/ try_block req = Raised TypeError.
Proof.
  destruct req as [| b | z | f | s | l | d].
  1-4: now (do 4 right).
  - unfold try_block, invalid_envelope; simpl.
    destruct (str_contains "jsonrpc" s); simpl; auto.
  - unfold try_block, invalid_envelope; simpl.
    destruct (existsb _ l); simpl; auto.
  - destruct (valid_envelope d) eqn:Hd.
    + destruct (valid_envelope_elim d Hd) as (Hv & [m Hm] & [i Hi]).
      rewrite (try_block_valid d m i Hv Hm Hi).
      destruct (dispatch_shapes m (params_of d) i) as [[v ->] | [-> | [-> | ->]]];
        eauto 6.
    + rewrite (try_block_invalid d Hd). auto.
Qed.

Section HandleRequestFurther.

Variable json_loads : string -> outcome value.
Variable json_dumps : value -> string.

(** X8. On a text that [json.loads] rejects, [handle_request] returns the
    Response with the error -32700, ["Parse error"], and the id null. *)
Theorem handle_request_malformed_text (request : string) :
  json_loads request = Raised JSONDecodeError ->
  handle_request json_loads json_dumps request =
  Returned (json_dumps
    (VDict [("jsonrpc", VStr "2.0");
            ("error", VDict [("code", VInt (-32700));
                             ("message", VStr "Parse error")]);
            ("id", VNone)])).
Proof. intro H. unfold handle_request. now rewrite H. Qed.

(** X9. On an object without the key ["jsonrpc"], with a ["jsonrpc"] other
    than the str ["2.0"], without ["method"] or without ["id"],
    [handle_request] returns the Response -32600, ["Invalid Request"]; its
    id is null even when the object has an id, and the method is not
    looked at. *)
Theorem handle_request_invalid_request (request : string)
  (d : list (string * value)) :
  json_loads request = Returned (VDict d) ->
  dict_get d "jsonrpc" = None
  \/ (exists version,
        dict_get d "jsonrpc" = Some version /\ eq_str version "2.0" = false)
  \/ dict_get d "method" = None
  \/ dict_get d "id" = None ->
  handle_request json_loads json_dumps request =
  Returned (json_dumps (fault_response (-32600) "Invalid Request" VNone)).
Proof.
  intros Hreq Hd.
  exact (handle_request_invalid_object json_loads json_dumps request d Hreq
           (invalid_object_cases d Hd)).
Qed.





(** X14. When a request with a valid envelope has no ["params"], the
    parameters are the empty list: ["sum"] has the result 0, ["add"] fails
    with the error -32602 and the id null, ["subtract"] fails with the error
    -32602 and the id of the request. *)
Theorem handle_request_missing_params (request : string)
  (d : list (string * value)) (method id : value) :
  json_loads request = Returned (VDict d) ->
  dict_get d "jsonrpc" = Some (VStr "2.0") ->
  dict_get d "method" = Some method ->
  dict_get d "id" = Some id ->
  dict_get d "params" = None ->
  (method = VStr "sum" ->
   handle_request json_loads json_dumps request =
   Returned (json_dumps (result_response id (VInt 0))))
  /\ (method = VStr "add" ->
      handle_request json_loads json_dumps request =
      Returned (json_dumps (fault_response (-32602) "Invalid parameters" VNone)))
  /\ (method = VStr "subtract" ->
      handle_request json_loads json_dumps request =
      Returned (json_dumps (fault_response (-32602) "Invalid parameters" id))).
Proof.
  intros Hreq Hv Hm Hi Hp.
  rewrite (handle_request_dispatch _ _ _ _ _ _ Hreq Hv Hm Hi).
  unfold params_of. rewrite Hp.
  repeat split; intros ->; reflexivity.
Qed.

(** X15. As [json.loads] raises nothing but [JSONDecodeError], every error
    that [handle_request] returns has one of the four codes -32700, -32600,
    -32601 and -32602, with the message of that code: ["Internal error"] is
    never sent. *)
Theorem handle_request_error_codes (request out : string) :
  (forall e, json_loads request = Raised e -> e = JSONDecodeError) ->
  handle_request json_loads json_dumps request = Returned out ->
  exists response,
    out = json_dumps response
    /\ (has_key response "error" = true ->
        exists c,
          getitem_str response "error" = Returned (error_object c (get_message c))
          /\ standard_code c).
Proof.
  intro Hloads. unfold handle_request, standard_code.
  destruct (json_loads request) as [req | e]; simpl.
  - destruct (try_block_shapes req)
      as [(i & v & ->) | [[i ->] | [[i ->] | [-> | ->]]]];
      simpl; try discriminate; intros [= <-]; eexists; (split; [reflexivity|]).
    + discriminate.
    + intros _. exists (-32601). split; [reflexivity | tauto].
    + intros _. exists (-32602). split; [reflexivity | tauto].
    + intros _. exists (-32600). split; [reflexivity | tauto].
  - rewrite (Hloads e eq_refl). simpl.
    intros [= <-]; eexists; (split; [reflexivity|]); intros _.
    exists (-32700). split; [reflexivity | tauto].
Qed.

(** X16. The Response depends on the four fields ["jsonrpc"], ["method"],
    ["params"] and ["id"] of the request only: two objects that agree on
    them, whatever their other keys and the order of their keys, get the
    same Response. *)
Theorem handle_request_same_envelope (request request' : string)
  (d d' : list (string * value)) :
  json_loads request = Returned (VDict d) ->
  json_loads request' = Returned (VDict d') ->
  same_envelope d d' ->
  handle_request json_loads json_dumps request
  = handle_request json_loads json_dumps request'.
Proof.
  intros Hreq Hreq' (Hv & Hm & Hp & Hi).
  rewrite (handle_request_decoded _ _ _ _ Hreq), (handle_request_decoded _ _ _ _ Hreq').
  assert (Hvalid : valid_envelope d = valid_envelope d').
  { unfold valid_envelope; simpl. now rewrite Hv, Hm, Hi. }
  destruct (valid_envelope d) eqn:Hd.
  - destruct (valid_envelope_elim d Hd) as (Hv1 & [m Hm1] & [i Hi1]).
    rewrite (try_block_valid d m i Hv1 Hm1 Hi1).
    rewrite (try_block_valid d' m i) by congruence.
    unfold params_of. now rewrite Hp.
  - now rewrite (try_block_invalid d Hd), (try_block_invalid d') by congruence.
Qed.


End HandleRequestFurther.

(** ** [main] *)

Section MainProperties.

Variable json_loads : string -> outcome value.
Variable json_dumps : value -> string.





End MainProperties.

(** ** [add], and the values that are not objects *)

(** X20. [add] raises the fault -32602, with the id it was given, when the
    parameters are not a list, when the list has fewer than two elements,
    when the first two elements are not two numbers, two strs or two lists,
    and when one is a float and the other an integer beyond the range of a
    float. *)
Theorem add_invalid_params :
  (forall params id,
     isinstance_list params = false ->
     add params id = Raised (invalid_params id))
  /\ (forall l id,
        (length l < 2)%nat ->
        add (VList l) id = Raised (invalid_params id))
  /\ (forall a b rest id,
        addable a b = false ->
        add (VList (a :: b :: rest)) id = Raised (invalid_params id))
  /\ (forall a b x g e rest id,
        as_number a = Some (NInt x) -> as_number b = Some (NFloat g) ->
        int_to_float x = Raised e ->
        add (VList (a :: b :: rest)) id = Raised (invalid_params id)
        /\ add (VList (b :: a :: rest)) id = Raised (invalid_params id)).
Proof.
  destruct add_sum_or_invalid_params
    as (_ & _ & _ & Hover & _ & _ & Hnl & Hshort & Hmis).
  split; [exact Hnl | split; [exact Hshort | split; [exact Hmis | exact Hover]]].
Qed.

Lemma add_invalid_params_witness :
  add (VDict [("a", VInt 2); ("b", VInt 3)]) (VInt 1) = Raised (invalid_params (VInt 1))
  /\ add (VList []) (VInt 1) = Raised (invalid_params (VInt 1))
  /\ add (VList [VInt 2; VNone]) (VInt 1) = Raised (invalid_params (VInt 1))
  /\ add (VList [VFloat 0.5; VInt (10 ^ 400)]) (VInt 1)
     = Raised (invalid_params (VInt 1)).
Proof.
  destruct add_invalid_params as (Hnl & Hshort & Hmis & Hover).
  repeat match goal with |- _ /\ _ => split end.
  - apply Hnl. reflexivity.
  - apply Hshort. simpl. lia.
  - apply Hmis. reflexivity.
  - refine (proj2 (Hover (VInt (10 ^ 400)) (VFloat 0.5) (10 ^ 400) _ OverflowError
                     [] (VInt 1) eq_refl eq_refl _)).
    vm_compute. reflexivity.
Defined.

(** X21. On a list whose first two elements are numbers, [add] returns their
    sum and ignores the other elements: the exact sum of two integers (a
    boolean counts as 1 or 0), the binary64 sum of two floats, and the
    binary64 sum of a float and an integer once the integer is converted to
    a float. *)
Theorem add_returns_sum :
  (forall a b x y rest id,
     as_number a = Some (NInt x) -> as_number b = Some (NInt y) ->
     add (VList (a :: b :: rest)) id = Returned (VInt (x + y)))
  /\ (forall a b f g rest id,
        as_number a = Some (NFloat f) -> as_number b = Some (NFloat g) ->
        add (VList (a :: b :: rest)) id = Returned (VFloat (PrimFloat.add f g)))
  /\ (forall a b x f g rest id,
        as_number a = Some (NInt x) -> as_number b = Some (NFloat g) ->
        int_to_float x = Returned f ->
        add (VList (a :: b :: rest)) id = Returned (VFloat (PrimFloat.add f g))
        /\ add (VList (b :: a :: rest)) id = Returned (VFloat (PrimFloat.add g f))).
Proof.
  destruct add_sum_or_invalid_params as (Hii & Hff & Hif & _).
  split; [exact Hii | split; [exact Hff | exact Hif]].
Qed.

Lemma add_returns_sum_witness :
  add (VList [VInt 2; VInt 3; VStr "ignored"]) VNone = Returned (VInt 5)
  /\ add (VList [VFloat 1.5; VFloat 2]) VNone = Returned (VFloat 3.5)
  /\ add (VList [VFloat 0.5; VInt 1]) VNone = Returned (VFloat 1.5).
Proof.
  destruct add_returns_sum as (Hii & Hff & Hif).
  repeat match goal with |- _ /\ _ => split end.
  - exact (Hii (VInt 2) (VInt 3) 2 3 _ VNone eq_refl eq_refl).
  - exact (Hff (VFloat 1.5) (VFloat 2) _ _ [] VNone eq_refl eq_refl).
  - exact (proj2 (Hif (VInt 1) (VFloat 0.5) 1 1%float _ [] VNone
                    eq_refl eq_refl eq_refl)).
Defined.

Section NonObjects.

Variable json_loads : string -> outcome value.
Variable json_dumps : value -> string.


(** X23. A request text that decodes to a str or to a list without
    ["jsonrpc"] in it gets the Response -32600, ["Invalid Request"], with
    the id null. *)
Theorem handle_request_sequence_invalid_request (request : string) (req : value) :
  json_loads request = Returned req ->
  isinstance_list req = true \/ (exists s, req = VStr s) ->
  envelope_test_raises req = false ->
  handle_request json_loads json_dumps request =
  Returned (json_dumps (fault_response (-32600) "Invalid Request" VNone)).
Proof.
  exact (handle_request_invalid_sequence json_loads json_dumps request req).
Qed.

End NonObjects.

(** ** Examples of the further properties *)

Lemma handle_request_malformed_text_witness :
  further_handle_request "{not json"
  = Returned (json_text
      "{'jsonrpc': '2.0', 'error': {'code': -32700, 'message': 'Parse error'}, 'id': null}").
Proof.
  exact (handle_request_malformed_text further_loads dumps_plain "{not json" eq_refl).
Defined.

Lemma handle_request_invalid_request_witness :
  further_handle_request no_method_text
  = Returned (json_text
      "{'jsonrpc': '2.0', 'error': {'code': -32600, 'message': 'Invalid Request'}, 'id': null}").
Proof.
  refine (handle_request_invalid_request further_loads dumps_plain no_method_text
            _ eq_refl _).
  right; right; left. reflexivity.
Defined.





Lemma handle_request_missing_params_witness :
  further_handle_request sum_no_params_text
  = Returned (json_text "{'jsonrpc': '2.0', 'id': 5, 'result': 0}").
Proof.
  exact (proj1 (handle_request_missing_params further_loads dumps_plain
                  sum_no_params_text _ (VStr "sum") (VInt 5)
                  eq_refl eq_refl eq_refl eq_refl eq_refl) eq_refl).
Defined.

Lemma handle_request_error_codes_witness :
  exists response,
    json_text
      "{'jsonrpc': '2.0', 'error': {'code': -32602, 'message': 'Invalid parameters'}, 'id': null}"
    = dumps_plain response
    /\ (has_key response "error" = true ->
        exists c,
          getitem_str response "error" = Returned (error_object c (get_message c))
          /\ standard_code c).
Proof.
  apply (handle_request_error_codes further_loads dumps_plain add_str_text).
  - intros e He. vm_compute in He. discriminate He.
  - vm_compute. reflexivity.
Defined.

Lemma handle_request_same_envelope_witness :
  further_handle_request add_text = further_handle_request add_reordered_text.
Proof.
  refine (handle_request_same_envelope further_loads dumps_plain
            add_text add_reordered_text _ _ eq_refl eq_refl _).
  repeat split.
Defined.






Lemma handle_request_sequence_invalid_request_witness :
  further_handle_request "[1, 2]"
  = Returned (json_text
      "{'jsonrpc': '2.0', 'error': {'code': -32600, 'message': 'Invalid Request'}, 'id': null}").
Proof.
  exact (handle_request_sequence_invalid_request further_loads dumps_plain
           "[1, 2]" (VList [VInt 1; VInt 2]) eq_refl (or_introl eq_refl) eq_refl).
Defined.
